(** * Mouse-triggered key replay and mouse button identifier

    A shallow embedding of the two scripts [mouse.py] and [mouseid.py].
    Both register one [on_click] callback with pynput's mouse listener and
    then block in [listener.join()].

    The callbacks are effectful: they read and write a module-level global,
    synthesise key events, sleep, draw random numbers and print.  They are
    embedded in a state-and-exception monad over an explicit world, so that
    the world reached when an exception escapes stays observable (a Python
    global keeps its value when the frame that assigned it unwinds).

    A Python float is the exact rational value of a binary64 number;
    literals and arithmetic round to nearest, ties to even. *)

From Stdlib Require Import ZArith QArith Qround List String Ascii Bool Lia Lqa.
Import ListNotations.

Set Implicit Arguments.

(* ================================================================== *)
(** ** Python values and exceptions *)

(** What a callback hands back to the listener.  pynput stops listening
    only when the callback returns the object [False]. *)
Inductive PyVal : Type :=
| PyNone
| PyBool (b : bool).

Inductive Exn : Type :=
| KeyboardInterrupt
| Exception (what : string).

(* ================================================================== *)
(** ** State and exception monad *)

Inductive Result (S A : Type) : Type :=
| Ok (a : A) (s : S)
| Raise (e : Exn) (s : S).

Arguments Ok {S A} a s.
Arguments Raise {S A} e s.

Definition M (S A : Type) : Type := S -> Result S A.

Section Monad.
Context {S : Type}.

Definition ret {A} (a : A) : M S A := fun s => Ok a s.

Definition bind {A B} (m : M S A) (k : A -> M S B) : M S B :=
  fun s =>
    match m s with
    | Ok a s' => k a s'
    | Raise e s' => Raise e s'
    end.

Definition raise {A} (e : Exn) : M S A := fun s => Raise e s.

Definition gets {A} (f : S -> A) : M S A := fun s => Ok (f s) s.

Definition modify (f : S -> S) : M S unit := fun s => Ok tt (f s).

(** [try: body / except <handled>: handler]: an exception the clause
    matches is replaced by the handler, any other one propagates. *)
Definition try_except {A} (body : M S A)
           (handled : Exn -> bool) (handler : M S A) : M S A :=
  fun s =>
    match body s with
    | Ok a s' => Ok a s'
    | Raise e s' => if handled e then handler s' else Raise e s'
    end.

(** [with ctx: body], for a context manager whose [__exit__] runs
    [on_exit] and does not swallow the exception. *)
Definition with_context {A} (on_exit : M S unit) (body : M S A) : M S A :=
  fun s =>
    match body s with
    | Ok a s' =>
        match on_exit s' with
        | Ok _ s'' => Ok a s''
        | Raise e s'' => Raise e s''
        end
    | Raise e s' =>
        match on_exit s' with
        | Ok _ s'' => Raise e s''
        | Raise e' s'' => Raise e' s''
        end
    end.

Definition final_state {A} (r : Result S A) : S :=
  match r with
  | Ok _ s => s
  | Raise _ s => s
  end.
End Monad.

Declare Scope monad_scope.
Delimit Scope monad_scope with monad.
Notation "x <- c ;; k" := (bind c (fun x => k))
  (at level 61, c at next level, right associativity) : monad_scope.
Notation "c ;; k" := (bind c (fun _ => k))
  (at level 61, right associativity) : monad_scope.
Local Open Scope monad_scope.

(* ================================================================== *)
(** ** The input-hook library: buttons, keys, listener *)

(** [pynput.mouse.Button] with the members of the backend that has [x2]. *)
Module Button.
Inductive t : Type := unknown | left | middle | right | x1 | x2.

Definition eqb (a b : t) : bool :=
  match a, b with
  | unknown, unknown | left, left | middle, middle
  | right, right | x1, x1 | x2, x2 => true
  | _, _ => false
  end.

Definition name (b : t) : string :=
  match b with
  | unknown => "unknown"
  | left => "left"
  | middle => "middle"
  | right => "right"
  | x1 => "x1"
  | x2 => "x2"
  end.

(** [str(button)] of an enum member, as an f-string renders it. *)
Definition str (b : t) : string := "Button." ++ name b.
End Button.

(** [pynput.keyboard]: a literal character or the special key [Key.esc]. *)
Module Key.
Inductive t : Type :=
| esc
| char (c : ascii).

Definition eqb (a b : t) : bool :=
  match a, b with
  | esc, esc => true
  | char c, char d => Ascii.eqb c d
  | _, _ => false
  end.
End Key.

(** One mouse button transition as the listener delivers it:
    [(x, y, button, pressed)]. *)
Record Click : Type := mkClick {
  click_x : Z;
  click_y : Z;
  click_button : Button.t;
  click_pressed : bool
}.

Section Listener.
Context {S : Type}.
Variable on_click : Z -> Z -> Button.t -> bool -> M S PyVal.

(** The listener thread: clicks are handed to the callback one at a
    time, in order; a callback that returns [False] ends the listening,
    one that raises ends it with the exception pending. *)
Fixpoint dispatch (clicks : list Click) : M S unit :=
  match clicks with
  | [] => ret tt
  | c :: rest =>
      r <- on_click (click_x c) (click_y c) (click_button c) (click_pressed c) ;;
      match r with
      | PyBool false => ret tt
      | _ => dispatch rest
      end
  end.

(** [listener.join()] seen from the main thread: the clicks delivered
    while it blocks are dispatched; an exception of the callback is
    raised again by [join]; otherwise the blocking ends with the
    exception the main thread receives, if any. *)
Definition join (clicks : list Click) (interrupt : option Exn) : M S unit :=
  dispatch clicks ;;
  match interrupt with
  | Some e => raise e
  | None => ret tt
  end.

(** [Listener.__exit__] stops the listener; the model has nothing to
    undo. *)
Definition listener_stop : M S unit := ret tt.
End Listener.

(** How the interpreter ends after running a script body. *)
Inductive Outcome : Type :=
| ExitedNormally
| UncaughtException (e : Exn).

Definition run_script {S} (body : M S unit) (s : S) : Outcome :=
  match body s with
  | Ok _ _ => ExitedNormally
  | Raise e _ => UncaughtException e
  end.

(** Exit status 0: the script body ran to its end. *)
Definition exits_zero (o : Outcome) : bool :=
  match o with
  | ExitedNormally => true
  | UncaughtException _ => false
  end.

(** The exception whose traceback the interpreter writes, if any. *)
Definition error_message (o : Outcome) : option Exn :=
  match o with
  | ExitedNormally => None
  | UncaughtException e => Some e
  end.

(* ================================================================== *)
(** ** Python floats *)

(** A finite binary64 number is an integer multiple of 2^-1074 with at
    most 53 significant bits.  A float is kept as its exact value in [Q];
    an operation computes the exact result and rounds it to the nearest
    such number, ties to the even one.  Signed zeros, infinities and NaN
    are left out: the script only handles numbers between 0 and 1. *)
Module Float.

(** The nearest integer, ties to even. *)
Definition round_half_even (y : Q) : Z :=
  let f := Qfloor y in
  match Qcompare (y - inject_Z f) (1 # 2) with
  | Lt => f
  | Gt => (f + 1)%Z
  | Eq => if Z.even f then f else (f + 1)%Z
  end.

(** Number of units of 2^-1074 in 1. *)
Definition units : Z := (2 ^ 1074)%Z.

(** For [X >= 0] counted in units: the binary logarithm of the spacing
    of the floats around [X] (0 up to 2^53 units, one more for each
    doubling after that). *)
Definition shift (X : Q) : Z := Z.max 0 (Z.log2 (Qfloor X) - 52).

Definition round_units (X : Q) : Z :=
  (round_half_even (X / inject_Z (2 ^ shift X)) * 2 ^ shift X)%Z.

Definition round_nonneg (x : Q) : Q :=
  Qred (inject_Z (round_units (x * inject_Z units)) / inject_Z units).

(** The float nearest to [x]. *)
Definition round (x : Q) : Q :=
  if Qle_bool 0 x then round_nonneg x else (- round_nonneg (- x))%Q.

(** A decimal literal of the source, and the three operations used. *)
Definition literal (q : Q) : Q := round q.
Definition add (x y : Q) : Q := round (x + y).
Definition sub (x y : Q) : Q := round (x - y).
Definition mul (x y : Q) : Q := round (x * y).

End Float.

Arguments Float.round : simpl never.
Arguments Float.literal : simpl never.
Arguments Float.add : simpl never.
Arguments Float.sub : simpl never.
Arguments Float.mul : simpl never.

(* ================================================================== *)
(** ** mouse.py: trigger and replay *)

Module Mouse.

(** What the script does to the outside, in the order it does it. *)
Inductive Effect : Type :=
| KeyPress (k : Key.t)
| KeyRelease (k : Key.t)
| Sleep (seconds : Q).

(** The global [is_script_running], the effects so far (oldest first),
    and the two things the script cannot control: the numbers
    [random.random()] returns (floats of [0, 1)), and whether a library
    call fails
    ([Some (n, e)]: [n] more calls succeed, the next one raises [e]). *)
Record World : Type := mkWorld {
  is_script_running : bool;
  effects : list Effect;
  random_source : nat -> Q;
  draws : nat;
  fault : option (nat * Exn)
}.

Definition set_is_script_running (b : bool) (w : World) : World :=
  mkWorld b (effects w) (random_source w) (draws w) (fault w).

Definition emit (e : Effect) (w : World) : World :=
  mkWorld (is_script_running w) (effects w ++ [e])
          (random_source w) (draws w) (fault w).

Definition next_draw (w : World) : World :=
  mkWorld (is_script_running w) (effects w)
          (random_source w) (S (draws w)) (fault w).

Definition set_fault (f : option (nat * Exn)) (w : World) : World :=
  mkWorld (is_script_running w) (effects w)
          (random_source w) (draws w) f.

(** A call into a library: it raises when the fault is due, and
    otherwise does its work. *)
Definition lib_call {A} (work : World -> A * World) : M World A :=
  fun w =>
    match fault w with
    | Some (O, e) => Raise e (set_fault None w)
    | Some (S n, e) =>
        let (a, w') := work (set_fault (Some (n, e)) w) in Ok a w'
    | None => let (a, w') := work w in Ok a w'
    end.

(** [keyboard.Controller().press(k)] and [.release(k)]. *)
Definition press (k : Key.t) : M World unit :=
  lib_call (fun w => (tt, emit (KeyPress k) w)).

Definition release (k : Key.t) : M World unit :=
  lib_call (fun w => (tt, emit (KeyRelease k) w)).

(** [time.sleep(seconds)]. *)
Definition sleep (seconds : Q) : M World unit :=
  lib_call (fun w => (tt, emit (Sleep seconds) w)).

(** [random.uniform(a, b)], which is [a + (b - a) * random()] in float
    arithmetic. *)
Definition uniform (a b : Q) : M World Q :=
  lib_call (fun w =>
    (Float.add a (Float.mul (Float.sub b a) (random_source w (draws w))),
     next_draw w)).

Definition button_to_trigger : Button.t := Button.x2.
Definition stop_key : Key.t := Key.esc.

Definition on_click (x y : Z) (button : Button.t) (pressed : bool)
  : M World PyVal :=
  running <- gets is_script_running ;;
  if Button.eqb button button_to_trigger && pressed && negb running then
    modify (set_is_script_running true) ;;
    press (Key.char "v") ;;
    d <- uniform (Float.literal 0.096) (Float.literal 0.1) ;;
    sleep d ;;
    release (Key.char "v") ;;
    sleep (Float.literal 0.005) ;;
    press (Key.char "2") ;;
    release (Key.char "2") ;;
    press (Key.char "1") ;;
    d <- uniform (Float.literal 0.096) (Float.literal 0.1) ;;
    sleep d ;;
    release (Key.char "1") ;;
    modify (set_is_script_running false) ;;
    ret PyNone
  else
    ret PyNone.

(** The world the module body sets up before it starts the listener. *)
Definition initial_world (rnd : nat -> Q) (f : option (nat * Exn)) : World :=
  mkWorld false [] rnd 0 f.

Definition handles (e : Exn) : bool :=
  match e with
  | KeyboardInterrupt => true
  | Exception _ => false
  end.

(** The [with mouse.Listener(...)] block at the end of the file. *)
Definition main (clicks : list Click) (interrupt : option Exn)
  : M World unit :=
  with_context listener_stop
    (try_except (join on_click clicks interrupt) handles (ret tt)).

(** *** Observations on a world and on a trace of effects *)

(** The condition of the handler's [if]. *)
Definition triggers (button : Button.t) (pressed : bool) (w : World) : bool :=
  Button.eqb button button_to_trigger && pressed && negb (is_script_running w).

(** The hold that [random.uniform(0.096, 0.1)] makes of a unit sample. *)
Definition hold_of (sample : Q) : Q :=
  Float.add (Float.literal 0.096)
    (Float.mul (Float.sub (Float.literal 0.1) (Float.literal 0.096)) sample).

(** The hold duration that the [i]-th next draw of a world gives. *)
Definition hold (w : World) (i : nat) : Q :=
  hold_of (random_source w (draws w + i)).

(** Whether the pending fault, if any, strikes within the next [calls]
    library calls, and what is pending once they are done. *)
Definition fault_due_within (calls : nat) (w : World) : bool :=
  match fault w with
  | Some (n, _) => (n <? calls)%nat
  | None => false
  end.

Definition fault_after (calls : nat) (w : World) : option (nat * Exn) :=
  match fault w with
  | Some (n, e) => Some ((n - calls)%nat, e)
  | None => None
  end.

Inductive KeyEvent : Type :=
| Pressed (k : Key.t)
| Released (k : Key.t).

Fixpoint key_events (tr : list Effect) : list KeyEvent :=
  match tr with
  | [] => []
  | KeyPress k :: rest => Pressed k :: key_events rest
  | KeyRelease k :: rest => Released k :: key_events rest
  | Sleep _ :: rest => key_events rest
  end.

Definition without (k : Key.t) (ks : list Key.t) : list Key.t :=
  filter (fun k' => negb (Key.eqb k k')) ks.

(** The keys that are down after a trace, starting from the keys in
    [down]: a press puts the key down, a release lifts it. *)
Fixpoint held_from (down : list Key.t) (tr : list Effect) : list Key.t :=
  match tr with
  | [] => down
  | KeyPress k :: rest => held_from (k :: without k down) rest
  | KeyRelease k :: rest => held_from (without k down) rest
  | Sleep _ :: rest => held_from down rest
  end.

Definition held (tr : list Effect) : list Key.t := held_from [] tr.

(** The replay of the source, key events only. *)
Definition replay_keys : list KeyEvent :=
  [ Pressed (Key.char "v"); Released (Key.char "v");
    Pressed (Key.char "2"); Released (Key.char "2");
    Pressed (Key.char "1"); Released (Key.char "1") ].

(** The whole replay, with the two drawn hold durations. *)
Definition replay (d1 d2 : Q) : list Effect :=
  [ KeyPress (Key.char "v"); Sleep d1; KeyRelease (Key.char "v");
    Sleep (Float.literal 0.005);
    KeyPress (Key.char "2"); KeyRelease (Key.char "2");
    KeyPress (Key.char "1"); Sleep d2; KeyRelease (Key.char "1") ].

Definition milliseconds (seconds : Q) : Q := (seconds * 1000)%Q.

(** Library calls one replay makes: six presses and releases, three
    sleeps and two draws. *)
Definition replay_calls : nat := 11.

(** Of the first [n] library calls of a replay, the second and the ninth
    are draws; the others each leave one effect. *)
Definition draws_in_calls (n : nat) : nat :=
  ((if 2 <=? n then 1 else 0) + (if 9 <=? n then 1 else 0))%nat.

Definition effects_in_calls (n : nat) : nat := (n - draws_in_calls n)%nat.

(** *** Observations on a whole run of clicks *)

(** A click that meets the first two tests of the handler's [if]. *)
Definition is_trigger_press (c : Click) : bool :=
  Button.eqb (click_button c) button_to_trigger && click_pressed c.

Definition trigger_presses (clicks : list Click) : nat :=
  List.length (filter is_trigger_press clicks).

(** [k] replays in a row, the first drawing the samples [from] and
    [from + 1], the next the two after them, and so on. *)
Fixpoint replays (rnd : nat -> Q) (from k : nat) : list Effect :=
  match k with
  | O => []
  | S k' =>
      replay (hold_of (rnd from)) (hold_of (rnd (S from)))
        ++ replays rnd (S (S from)) k'
  end.

(** Seconds slept in a trace. *)
Fixpoint slept (tr : list Effect) : Q :=
  match tr with
  | [] => 0
  | Sleep d :: rest => (d + slept rest)%Q
  | _ :: rest => slept rest
  end.

(** Whether an effect presses or releases the key [k]. *)
Definition touches (k : Key.t) (e : Effect) : bool :=
  match e with
  | KeyPress k' | KeyRelease k' => Key.eqb k k'
  | Sleep _ => false
  end.

End Mouse.

(* ================================================================== *)
(** ** mouseid.py: button identifier *)

Module MouseId.

(** The console: every character written to standard output. *)
Record World : Type := mkWorld {
  stdout : string
}.

Definition newline : string := String "010"%char EmptyString.

(** [print(s)] writes [s] and a line end. *)
Definition print (s : string) : M World unit :=
  modify (fun w => mkWorld (stdout w ++ s ++ newline)).

(** The text of the f-string. *)
Definition message (button : Button.t) (pressed : bool) : string :=
  "Button " ++ Button.str button ++ " "
    ++ (if pressed then "pressed" else "released").

Definition on_click (x y : Z) (button : Button.t) (pressed : bool)
  : M World PyVal :=
  print (message button pressed) ;;
  ret PyNone.

Definition initial_world : World := mkWorld "".

(** The [with mouse.Listener(...)] block: [join] is not guarded. *)
Definition main (clicks : list Click) (interrupt : option Exn)
  : M World unit :=
  with_context listener_stop (join on_click clicks interrupt).

(** *** Observations on the console *)

Definition is_newline (c : ascii) : bool := Ascii.eqb c "010"%char.

(** The lines of a text in which every line is ended by a line end;
    [cur] holds the characters already read of the current line. *)
Fixpoint lines_from (cur : string) (s : string) : list string :=
  match s with
  | EmptyString =>
      match cur with
      | EmptyString => []
      | _ => [cur]
      end
  | String c rest =>
      if is_newline c then cur :: lines_from "" rest
      else lines_from (cur ++ String c "") rest
  end.

Definition lines (s : string) : list string := lines_from "" s.

Definition message_of (c : Click) : string :=
  message (click_button c) (click_pressed c).

(** The console text of a list of messages, one per line. *)
Fixpoint printed (msgs : list string) : string :=
  match msgs with
  | [] => ""
  | m :: rest => m ++ newline ++ printed rest
  end.

Fixpoint has_newline (s : string) : bool :=
  match s with
  | EmptyString => false
  | String c rest => is_newline c || has_newline rest
  end.

End MouseId.

Unset Implicit Arguments.

(* ================================================================== *)
(** * Properties of the float rounding *)

Section FloatFacts.
Import Float.

Lemma round_half_even_bounds (y : Q) :
  (Qfloor y <= round_half_even y <= Qfloor y + 1)%Z.
Proof.
  unfold round_half_even.
  destruct (Qcompare (y - inject_Z (Qfloor y)) (1 # 2));
    [destruct (Z.even (Qfloor y))| |]; lia.
Qed.

Lemma round_half_even_mono (u v : Q) :
  u <= v -> (round_half_even u <= round_half_even v)%Z.
Proof.
  intros Huv.
  pose proof (Qfloor_resp_le u v Huv) as Hf.
  pose proof (round_half_even_bounds u) as Bu.
  pose proof (round_half_even_bounds v) as Bv.
  destruct (Z.eq_dec (Qfloor u) (Qfloor v)) as [E | N]; [|lia].
  unfold round_half_even. rewrite E.
  destruct (Qcompare_spec (u - inject_Z (Qfloor v)) (1 # 2)) as [Hu | Hu | Hu];
    destruct (Qcompare_spec (v - inject_Z (Qfloor v)) (1 # 2)) as [Hv | Hv | Hv];
    try (destruct (Z.even (Qfloor v))); try lia; exfalso; lra.
Qed.

Lemma pow2_pos (s : Z) : (0 <= s)%Z -> 0 < inject_Z (2 ^ s).
Proof.
  intros Hs. change 0 with (inject_Z 0). rewrite <- Zlt_Qlt.
  apply Z.pow_pos_nonneg; lia.
Qed.

Lemma shift_nonneg (X : Q) : (0 <= shift X)%Z.
Proof. unfold shift. lia. Qed.

Lemma Qfloor_nonneg (X : Q) : 0 <= X -> (0 <= Qfloor X)%Z.
Proof.
  intros H. apply Qfloor_resp_le in H. exact H.
Qed.

Lemma shift_mono (X Y : Q) : 0 <= X -> X <= Y -> (shift X <= shift Y)%Z.
Proof.
  intros H0 H. unfold shift.
  pose proof (Qfloor_nonneg X H0).
  pose proof (Qfloor_resp_le X Y H).
  pose proof (Z.log2_le_mono (Qfloor X) (Qfloor Y)). lia.
Qed.

(** A rounded number is at most the power of two that ends its binade. *)
Lemma round_units_upper (X : Q) :
  0 <= X -> (round_units X <= 2 ^ (53 + shift X))%Z.
Proof.
  intros H0. unfold round_units.
  pose proof (shift_nonneg X) as Hs.
  set (s := shift X) in *.
  assert (Hfl : (Qfloor X < 2 ^ (53 + s))%Z).
  { pose proof (Qfloor_nonneg X H0) as Hf.
    destruct (Z.eq_dec (Qfloor X) 0) as [E | N].
    - rewrite E. apply Z.pow_pos_nonneg; lia.
    - destruct (Z.log2_spec (Qfloor X)) as [_ Hlt]; [lia|].
      eapply Z.lt_le_trans; [exact Hlt|].
      apply Z.pow_le_mono_r; [lia|]. subst s. unfold shift. lia. }
  assert (HX : X < inject_Z (2 ^ 53) * inject_Z (2 ^ s)).
  { rewrite <- inject_Z_mult, <- Z.pow_add_r by lia.
    eapply Qlt_le_trans; [apply Qlt_floor|].
    rewrite <- Zle_Qle. lia. }
  assert (Hq : X / inject_Z (2 ^ s) < inject_Z (2 ^ 53)).
  { apply Qlt_shift_div_r; [apply pow2_pos; exact Hs | exact HX]. }
  assert (Hfq : (Qfloor (X / inject_Z (2 ^ s)) < 2 ^ 53)%Z).
  { rewrite Zlt_Qlt. eapply Qle_lt_trans; [apply Qfloor_le | exact Hq]. }
  pose proof (round_half_even_bounds (X / inject_Z (2 ^ s))) as B.
  rewrite Z.pow_add_r by lia.
  apply Z.mul_le_mono_nonneg_r; [apply Z.pow_nonneg; lia | lia].
Qed.

(** Above 2^53 units it is at least the power of two that starts it. *)
Lemma round_units_lower (Y : Q) :
  (0 < shift Y)%Z -> (2 ^ (52 + shift Y) <= round_units Y)%Z.
Proof.
  intros Hs. unfold round_units.
  set (s := shift Y) in *.
  assert (Hl : Z.log2 (Qfloor Y) = (52 + s)%Z).
  { subst s. unfold shift in *. lia. }
  assert (Hp : (0 < Qfloor Y)%Z).
  { destruct (Z.lt_ge_cases 0 (Qfloor Y)) as [H | H]; [exact H|].
    rewrite (Z.log2_nonpos _ H) in Hl. lia. }
  destruct (Z.log2_spec (Qfloor Y) Hp) as [Hle _]. rewrite Hl in Hle.
  assert (HY : inject_Z (2 ^ 52) * inject_Z (2 ^ s) <= Y).
  { rewrite <- inject_Z_mult, <- Z.pow_add_r by lia.
    eapply Qle_trans; [|apply Qfloor_le].
    rewrite <- Zle_Qle. exact Hle. }
  assert (Hq : inject_Z (2 ^ 52) <= Y / inject_Z (2 ^ s)).
  { apply Qle_shift_div_l; [apply pow2_pos; lia | exact HY]. }
  apply Qfloor_resp_le in Hq. rewrite Qfloor_Z in Hq.
  pose proof (round_half_even_bounds (Y / inject_Z (2 ^ s))) as B.
  rewrite Z.pow_add_r by lia.
  apply Z.mul_le_mono_nonneg_r; [apply Z.pow_nonneg; lia | lia].
Qed.

Lemma round_units_mono (X Y : Q) :
  0 <= X -> X <= Y -> (round_units X <= round_units Y)%Z.
Proof.
  intros H0 H.
  pose proof (shift_mono X Y H0 H) as Hs.
  pose proof (shift_nonneg X) as Hsx.
  destruct (Z.eq_dec (shift X) (shift Y)) as [E | N].
  - unfold round_units. rewrite E.
    apply Z.mul_le_mono_nonneg_r; [apply Z.pow_nonneg; lia|].
    apply round_half_even_mono.
    apply Qmult_le_compat_r; [exact H|].
    apply Qlt_le_weak, Qinv_lt_0_compat, pow2_pos. lia.
  - eapply Z.le_trans; [apply round_units_upper; exact H0|].
    eapply Z.le_trans; [|apply round_units_lower; lia].
    apply Z.pow_le_mono_r; lia.
Qed.

Lemma units_pos : 0 < inject_Z units.
Proof. apply pow2_pos. lia. Qed.

Lemma round_nonneg_mono (x y : Q) :
  0 <= x -> x <= y -> round_nonneg x <= round_nonneg y.
Proof.
  intros H0 H. unfold round_nonneg. rewrite !Qred_correct.
  apply Qmult_le_compat_r;
    [|apply Qlt_le_weak, Qinv_lt_0_compat, units_pos].
  rewrite <- Zle_Qle. apply round_units_mono.
  - apply Qmult_le_0_compat; [exact H0 | apply Qlt_le_weak, units_pos].
  - apply Qmult_le_compat_r; [exact H | apply Qlt_le_weak, units_pos].
Qed.

(** Rounding keeps the order of non-negative numbers. *)
Lemma round_mono (x y : Q) : 0 <= x -> x <= y -> round x <= round y.
Proof.
  intros H0 H. unfold round.
  rewrite (proj2 (Qle_bool_iff 0 x) H0).
  rewrite (proj2 (Qle_bool_iff 0 y) (Qle_trans _ _ _ H0 H)).
  apply round_nonneg_mono; assumption.
Qed.


(** The floats of the three literals of mouse.py, and of the width of
    the interval of the draw. *)
Lemma literal_0_096 :
  Float.literal 0.096 = 3458764513820541 # 36028797018963968.
Proof. vm_compute. reflexivity. Qed.

Lemma literal_0_1 :
  Float.literal 0.1 = 3602879701896397 # 36028797018963968.
Proof. vm_compute. reflexivity. Qed.

Lemma literal_0_005 :
  Float.literal 0.005 = 5764607523034235 # 1152921504606846976.
Proof. vm_compute. reflexivity. Qed.

Lemma width_of_draw :
  Float.sub (Float.literal 0.1) (Float.literal 0.096)
    = 9007199254741 # 2251799813685248.
Proof. vm_compute. reflexivity. Qed.

(** For floats [a >= 0] and [c > 0] whose float sum is [b], the float
    value of [a + c * r] stays between [a] and [b] for every [r] of
    [0, 1). *)
Lemma scaled_sum_between (a b c r : Q) :
  0 <= a -> 0 < c ->
  Float.round a = a -> Float.round (c * 1) = c ->
  Float.round 0 = 0 -> Float.round (a + c) = b ->
  0 <= r -> r < 1 ->
  a <= Float.add a (Float.mul c r) /\ Float.add a (Float.mul c r) <= b.
Proof.
  intros Ha Hc Ra Rc R0 Rb H0 H1.
  unfold Float.add, Float.mul.
  assert (Hp0 : 0 <= c * r).
  { apply Qmult_le_0_compat; [apply Qlt_le_weak; exact Hc | exact H0]. }
  assert (Hp1 : c * r <= c * 1).
  { apply Qmult_le_l; [exact Hc | apply Qlt_le_weak; exact H1]. }
  pose proof (round_mono 0 (c * r) (Qle_refl 0) Hp0) as Hm0.
  rewrite R0 in Hm0.
  pose proof (round_mono (c * r) (c * 1) Hp0 Hp1) as Hm1.
  rewrite Rc in Hm1.
  revert Hm0 Hm1. generalize (Float.round (c * r)). intros p Hm0 Hm1.
  split.
  - pose proof (round_mono a (a + p) Ha) as K.
    rewrite Ra in K. apply K. lra.
  - pose proof (round_mono (a + p) (a + c)) as K.
    rewrite Rb in K. apply K; lra.
Qed.

(** [a + (b - a) * r] in float arithmetic stays between the floats [a]
    and [b] of the script for every [r] of [0, 1). *)
Lemma uniform_between_floats (r : Q) :
  0 <= r -> r < 1 ->
  Float.literal 0.096 <=
    Float.add (Float.literal 0.096)
      (Float.mul (Float.sub (Float.literal 0.1) (Float.literal 0.096)) r)
  /\ Float.add (Float.literal 0.096)
       (Float.mul (Float.sub (Float.literal 0.1) (Float.literal 0.096)) r)
     <= Float.literal 0.1.
Proof.
  intros H0 H1.
  rewrite width_of_draw, literal_0_096, literal_0_1.
  apply scaled_sum_between; try assumption.
  - discriminate.
  - reflexivity.
  - vm_compute. reflexivity.
  - vm_compute. reflexivity.
  - vm_compute. reflexivity.
  - vm_compute. reflexivity.
Qed.


End FloatFacts.

(* ================================================================== *)
(** * Properties of mouse.py *)

Section MouseFacts.
Import Mouse.

Lemma button_eqb_eq (a b : Button.t) : Button.eqb a b = true <-> a = b.
Proof.
  split.
  - destruct a, b; simpl; intros H; try reflexivity; discriminate H.
  - intros ->. destruct b; reflexivity.
Qed.

Lemma triggers_iff button pressed w :
  triggers button pressed w = true <->
  button = button_to_trigger /\ pressed = true /\ is_script_running w = false.
Proof.
  unfold triggers. rewrite !andb_true_iff, negb_true_iff, button_eqb_eq. tauto.
Qed.

(** With no fault pending, a triggering press runs the whole replay. *)
Lemma on_click_runs_replay (x y : Z) (w : World) :
  is_script_running w = false ->
  fault w = None ->
  on_click x y button_to_trigger true w =
    Ok PyNone (mkWorld false (effects w ++ replay (hold w 0) (hold w 1))
                       (random_source w) (2 + draws w)%nat None).
Proof.
  destruct w as [run tr rnd k f].
  cbn [is_script_running fault effects random_source draws]. intros -> ->.
  unfold hold, hold_of. cbn [random_source draws].
  rewrite Nat.add_0_r, Nat.add_1_r.
  unfold on_click, bind, gets, modify, ret, press, release, sleep, uniform,
    lib_call, replay, set_is_script_running, emit, next_draw.
  cbn -[Float.add Float.mul Float.sub Float.literal].
  repeat rewrite <- app_assoc. reflexivity.
Qed.

(** An event that does not trigger leaves the world as it is. *)
Lemma on_click_ignores (x y : Z) button pressed (w : World) :
  triggers button pressed w = false ->
  on_click x y button pressed w = Ok PyNone w.
Proof.
  unfold triggers, on_click, bind, gets. intros ->. reflexivity.
Qed.

(** A fault that is due within the replay stops it there: the exception
    leaves the handler, and the world keeps what was done before it. *)
Lemma on_click_crashes (x y : Z) (w : World) (n : nat) (e : Exn) :
  is_script_running w = false ->
  fault w = Some (n, e) ->
  (n < replay_calls)%nat ->
  on_click x y button_to_trigger true w =
    Raise e (mkWorld true
               (effects w ++
                  firstn (effects_in_calls n) (replay (hold w 0) (hold w 1)))
               (random_source w) (draws_in_calls n + draws w)%nat None).
Proof.
  destruct w as [run tr rnd k f].
  cbn [is_script_running fault effects random_source draws].
  intros -> -> Hn.
  unfold hold, hold_of. cbn [random_source draws].
  rewrite Nat.add_0_r, Nat.add_1_r.
  unfold replay_calls in Hn.
  unfold on_click, bind, gets, modify, ret, press, release, sleep, uniform,
    lib_call, replay, set_is_script_running, emit, next_draw, set_fault.
  do 11 (destruct n as [|n];
         [ cbn -[Float.add Float.mul Float.sub Float.literal];
           repeat rewrite <- app_assoc; rewrite ?app_nil_r; reflexivity | ]).
  exfalso. lia.
Qed.

(** A fault that is due later lets the replay run, eleven calls nearer. *)
Lemma on_click_outruns_fault (x y : Z) (w : World) (n : nat) (e : Exn) :
  is_script_running w = false ->
  fault w = Some (replay_calls + n, e)%nat ->
  on_click x y button_to_trigger true w =
    Ok PyNone (mkWorld false (effects w ++ replay (hold w 0) (hold w 1))
                       (random_source w) (2 + draws w)%nat (Some (n, e))).
Proof.
  destruct w as [run tr rnd k f].
  cbn [is_script_running fault effects random_source draws].
  intros -> ->.
  unfold hold, hold_of. cbn [random_source draws].
  rewrite Nat.add_0_r, Nat.add_1_r.
  unfold on_click, bind, gets, modify, ret, press, release, sleep, uniform,
    lib_call, replay, set_is_script_running, emit, next_draw, set_fault.
  cbn -[Float.add Float.mul Float.sub Float.literal].
  repeat rewrite <- app_assoc. reflexivity.
Qed.

Lemma key_events_app (tr1 tr2 : list Effect) :
  key_events (tr1 ++ tr2) = key_events tr1 ++ key_events tr2.
Proof.
  induction tr1 as [|e tr1 IH]; simpl.
  - reflexivity.
  - destruct e; simpl; rewrite IH; reflexivity.
Qed.

Lemma key_events_replay (d1 d2 : Q) : key_events (replay d1 d2) = replay_keys.
Proof. reflexivity. Qed.

Lemma held_from_app (down : list Key.t) (tr1 tr2 : list Effect) :
  held_from down (tr1 ++ tr2) = held_from (held_from down tr1) tr2.
Proof.
  revert down. induction tr1 as [|e tr1 IH]; intros down; simpl.
  - reflexivity.
  - destruct e; apply IH.
Qed.

(** A replay that no fault reaches runs to its end, whatever is pending
    after it. *)
Lemma on_click_completes (x y : Z) (w : World) :
  is_script_running w = false ->
  fault_due_within replay_calls w = false ->
  on_click x y button_to_trigger true w =
    Ok PyNone (mkWorld false (effects w ++ replay (hold w 0) (hold w 1))
                       (random_source w) (2 + draws w)%nat
                       (fault_after replay_calls w)).
Proof.
  intros Hrun Hdue.
  unfold fault_due_within, fault_after in *.
  destruct (fault w) as [[n e]|] eqn:Hf.
  - apply Nat.ltb_ge in Hdue.
    replace n with (replay_calls + (n - replay_calls))%nat in Hf by lia.
    rewrite (on_click_outruns_fault x y w _ e Hrun Hf). reflexivity.
  - apply on_click_runs_replay; assumption.
Qed.

(** Every invocation ends in one of three ways. *)
Lemma on_click_cases (x y : Z) button pressed (w : World) :
  (triggers button pressed w = false /\
   on_click x y button pressed w = Ok PyNone w)
  \/ (triggers button pressed w = true /\
      fault_due_within replay_calls w = false /\
      exists w', on_click x y button pressed w = Ok PyNone w' /\
                 is_script_running w' = false /\
                 effects w' = effects w ++ replay (hold w 0) (hold w 1) /\
                 fault w' = fault_after replay_calls w)
  \/ (triggers button pressed w = true /\
      exists n e w', fault w = Some (n, e) /\ (n < replay_calls)%nat /\
                     on_click x y button pressed w = Raise e w' /\
                     is_script_running w' = true /\
                     fault w' = None).
Proof.
  destruct (triggers button pressed w) eqn:Ht.
  - apply triggers_iff in Ht. destruct Ht as (-> & -> & Hrun).
    destruct (fault_due_within replay_calls w) eqn:Hdue.
    + right; right. split; [reflexivity|].
      unfold fault_due_within in Hdue.
      destruct (fault w) as [[n e]|] eqn:Hf; [|discriminate].
      apply Nat.ltb_lt in Hdue.
      exists n, e. eexists. split; [reflexivity|]. split; [exact Hdue|].
      split; [apply (on_click_crashes x y w n e Hrun Hf Hdue)|].
      split; reflexivity.
    + right; left. split; [reflexivity|]. split; [reflexivity|].
      eexists. split; [apply (on_click_completes x y w Hrun Hdue)|].
      repeat split.
  - left. split; [reflexivity|]. apply on_click_ignores. exact Ht.
Qed.

(** C1: a press of the trigger button that finds the guard flag false and
    meets no failing library call makes the handler emit exactly the key
    events press v, release v, press 2, release 2, press 1, release 1, in
    that order, and no other key event. *)
Theorem trigger_press_emits_replay (x y : Z) (w : World) :
  is_script_running w = false ->
  fault_due_within replay_calls w = false ->
  exists w' tr,
    on_click x y button_to_trigger true w = Ok PyNone w' /\
    effects w' = effects w ++ tr /\
    key_events tr =
      [ Pressed (Key.char "v"); Released (Key.char "v");
        Pressed (Key.char "2"); Released (Key.char "2");
        Pressed (Key.char "1"); Released (Key.char "1") ].
Proof.
  intros Hrun Hdue.
  eexists. exists (replay (hold w 0) (hold w 1)).
  split; [apply on_click_completes; assumption|].
  split; reflexivity.
Qed.

Lemma trigger_press_emits_replay_witness :
  exists w' tr,
    on_click 10 20 button_to_trigger true
             (initial_world (fun _ => 1 # 2) None) = Ok PyNone w' /\
    effects w' = [] ++ tr /\
    key_events tr =
      [ Pressed (Key.char "v"); Released (Key.char "v");
        Pressed (Key.char "2"); Released (Key.char "2");
        Pressed (Key.char "1"); Released (Key.char "1") ].
Proof.
  apply (trigger_press_emits_replay 10 20
           (initial_world (fun _ => 1 # 2) None)); reflexivity.
Defined.

(** C2: a press of the trigger button while the guard flag is true, any
    event of another button, and a release of the trigger button emit no
    key event; the handler returns having changed nothing. *)
Theorem other_events_are_ignored (x y : Z) button pressed (w : World) :
  (button = button_to_trigger /\ pressed = true /\ is_script_running w = true)
  \/ button <> button_to_trigger
  \/ (button = button_to_trigger /\ pressed = false) ->
  on_click x y button pressed w = Ok PyNone w /\
  key_events (effects (final_state (on_click x y button pressed w))) =
    key_events (effects w).
Proof.
  intros H.
  assert (Ht : triggers button pressed w = false).
  { destruct (triggers button pressed w) eqn:Ht; [|reflexivity].
    apply triggers_iff in Ht. destruct Ht as (Hb & Hp & Hr).
    destruct H as [(_ & _ & H) | [H | (_ & H)]]; congruence. }
  rewrite (on_click_ignores x y button pressed w Ht).
  split; reflexivity.
Qed.

Lemma other_events_are_ignored_witness :
  on_click 3 4 Button.x2 true (mkWorld true [] (fun _ => 0) 0 None)
    = Ok PyNone (mkWorld true [] (fun _ => 0) 0 None) /\
  on_click 3 4 Button.left true (initial_world (fun _ => 0) None)
    = Ok PyNone (initial_world (fun _ => 0) None) /\
  on_click 3 4 Button.x2 false (initial_world (fun _ => 0) None)
    = Ok PyNone (initial_world (fun _ => 0) None).
Proof.
  split; [|split].
  - apply (other_events_are_ignored 3 4 Button.x2 true
             (mkWorld true [] (fun _ => 0) 0 None)).
    left. repeat split.
  - apply (other_events_are_ignored 3 4 Button.left true
             (initial_world (fun _ => 0) None)).
    right; left. discriminate.
  - apply (other_events_are_ignored 3 4 Button.x2 false
             (initial_world (fun _ => 0) None)).
    right; right. split; reflexivity.
Defined.

Lemma dispatch_cons (c : Click) (rest : list Click) (w : World) :
  dispatch on_click (c :: rest) w =
    match on_click (click_x c) (click_y c) (click_button c) (click_pressed c) w with
    | Ok (PyBool false) w' => Ok tt w'
    | Ok _ w' => dispatch on_click rest w'
    | Raise e w' => Raise e w'
    end.
Proof.
  cbn [dispatch]. unfold bind.
  destruct (on_click _ _ _ _ w) as [[|[|]] w'|e w']; reflexivity.
Qed.

(** Between two invocations the guard flag is down; it is up in a world
    that an exception left. *)
Lemma dispatch_guard_flag (clicks : list Click) (w : World) :
  is_script_running w = false ->
  match dispatch on_click clicks w with
  | Ok _ w' => is_script_running w' = false
  | Raise _ w' => is_script_running w' = true
  end.
Proof.
  revert w. induction clicks as [|c rest IH]; intros w Hrun.
  - exact Hrun.
  - rewrite dispatch_cons.
    destruct (on_click_cases (click_x c) (click_y c) (click_button c)
                (click_pressed c) w)
      as [(_ & ->) | [(_ & _ & w' & -> & Hrun' & _)
                     | (_ & n & e & w' & _ & _ & -> & Hrun' & _)]].
    + apply IH. exact Hrun.
    + apply IH. exact Hrun'.
    + exact Hrun'.
Qed.

(** C3: the guard flag is raised when a replay starts and lowered when it
    ends.  From a world with the flag false: a handler that is stopped
    anywhere inside the replay leaves the flag true, already at the first
    key press; a handler that completes leaves it false; and it is false
    again after every completed run of invocations. *)
Theorem guard_flag_scoped_to_replay
        (x y : Z) button pressed (w : World) :
  is_script_running w = false ->
  (forall e w', on_click x y button pressed w = Raise e w' ->
                is_script_running w' = true)
  /\ (forall n e, triggers button pressed w = true ->
                  fault w = Some (n, e) -> (n < replay_calls)%nat ->
                  exists w', on_click x y button pressed w = Raise e w' /\
                             is_script_running w' = true)
  /\ (forall v w', on_click x y button pressed w = Ok v w' ->
                   is_script_running w' = false)
  /\ (fault_due_within replay_calls w = false ->
      exists w', on_click x y button pressed w = Ok PyNone w' /\
                 is_script_running w' = false)
  /\ (forall clicks u w', dispatch on_click clicks w = Ok u w' ->
                          is_script_running w' = false).
Proof.
  intros Hrun.
  pose proof (on_click_cases x y button pressed w) as Hc.
  repeat split.
  - intros e w' He.
    destruct Hc as [(_ & H) | [(_ & _ & w1 & H & _)
                              | (_ & n & e1 & w1 & _ & _ & H & Hr & _)]];
      rewrite H in He; try discriminate.
    injection He as _ <-. exact Hr.
  - intros n e Ht Hf Hn.
    apply triggers_iff in Ht. destruct Ht as (-> & -> & _).
    eexists. split; [apply (on_click_crashes x y w n e Hrun Hf Hn)|].
    reflexivity.
  - intros v w' Hv.
    destruct Hc as [(_ & H) | [(_ & _ & w1 & H & Hr & _)
                              | (_ & n & e1 & w1 & _ & _ & H & _)]];
      rewrite H in Hv; try discriminate;
      injection Hv as _ <-; assumption.
  - intros Hdue.
    destruct Hc as [(_ & H) | [(_ & _ & w1 & H & Hr & _)
                              | (_ & n & e1 & w1 & Hf & Hn & _)]].
    + exists w. split; assumption.
    + exists w1. split; assumption.
    + unfold fault_due_within in Hdue. rewrite Hf in Hdue.
      apply Nat.ltb_ge in Hdue. lia.
  - intros clicks u w' Hd.
    pose proof (dispatch_guard_flag clicks w Hrun) as H.
    rewrite Hd in H. exact H.
Qed.

Lemma guard_flag_scoped_to_replay_witness :
  (exists w',
     on_click 0 0 Button.x2 true
       (initial_world (fun _ => 1 # 4) (Some (2%nat, Exception "sleep")))
       = Raise (Exception "sleep") w' /\
     is_script_running w' = true)
  /\ (exists w',
        on_click 0 0 Button.x2 true (initial_world (fun _ => 1 # 4) None)
          = Ok PyNone w' /\
        is_script_running w' = false).
Proof.
  split.
  - destruct (guard_flag_scoped_to_replay 0 0 Button.x2 true
                (initial_world (fun _ => 1 # 4)
                               (Some (2%nat, Exception "sleep"))) eq_refl)
      as (_ & Hstop & _).
    apply (Hstop 2%nat); [reflexivity | reflexivity | unfold replay_calls; lia].
  - destruct (guard_flag_scoped_to_replay 0 0 Button.x2 true
                (initial_world (fun _ => 1 # 4) None) eq_refl)
      as (_ & _ & _ & Hend & _).
    apply Hend. reflexivity.
Defined.

(** C4: of two presses of the trigger button handled one after the
    other, the first runs the replay and leaves the guard flag false, and
    the second runs the whole replay again. *)
Theorem second_press_replays_again (xa ya xb yb : Z) (w : World) :
  is_script_running w = false ->
  fault_due_within (2 * replay_calls) w = false ->
  exists w1 w2 tr1 tr2,
    on_click xa ya button_to_trigger true w = Ok PyNone w1 /\
    is_script_running w1 = false /\
    effects w1 = effects w ++ tr1 /\
    key_events tr1 = replay_keys /\
    on_click xb yb button_to_trigger true w1 = Ok PyNone w2 /\
    is_script_running w2 = false /\
    effects w2 = effects w1 ++ tr2 /\
    key_events tr2 = replay_keys /\
    dispatch on_click [ mkClick xa ya button_to_trigger true;
                        mkClick xb yb button_to_trigger true ] w = Ok tt w2.
Proof.
  intros Hrun Hdue.
  assert (Hdue1 : fault_due_within replay_calls w = false).
  { unfold fault_due_within in *. destruct (fault w) as [[n e]|]; [|reflexivity].
    apply Nat.ltb_ge in Hdue. apply Nat.ltb_ge. lia. }
  pose proof (on_click_completes xa ya w Hrun Hdue1) as H1.
  set (w1 := mkWorld false (effects w ++ replay (hold w 0) (hold w 1))
                     (random_source w) (2 + draws w)
                     (fault_after replay_calls w)) in *.
  assert (Hdue2 : fault_due_within replay_calls w1 = false).
  { unfold fault_due_within, fault_after in *. subst w1. cbn [fault].
    destruct (fault w) as [[n e]|]; [|reflexivity].
    apply Nat.ltb_ge in Hdue. apply Nat.ltb_ge. lia. }
  pose proof (on_click_completes xb yb w1 eq_refl Hdue2) as H2.
  exists w1. eexists. exists (replay (hold w 0) (hold w 1)).
  exists (replay (hold w1 0) (hold w1 1)).
  split; [exact H1|]. split; [reflexivity|]. split; [reflexivity|].
  split; [reflexivity|]. split; [exact H2|].
  split; [reflexivity|]. split; [reflexivity|]. split; [reflexivity|].
  rewrite dispatch_cons. cbn [click_x click_y click_button click_pressed].
  rewrite H1. rewrite dispatch_cons.
  cbn [click_x click_y click_button click_pressed].
  rewrite H2. reflexivity.
Qed.

Lemma second_press_replays_again_witness :
  exists w1 w2,
    is_script_running w1 = false /\
    key_events (effects w2) = replay_keys ++ replay_keys /\
    dispatch on_click [ mkClick 1 1 button_to_trigger true;
                        mkClick 2 2 button_to_trigger true ]
             (initial_world (fun _ => 1 # 2) None) = Ok tt w2.
Proof.
  destruct (second_press_replays_again 1 1 2 2
              (initial_world (fun _ => 1 # 2) None) eq_refl eq_refl)
    as (w1 & w2 & tr1 & tr2 & _ & Hr1 & E1 & K1 & _ & _ & E2 & K2 & D).
  exists w1, w2. split; [exact Hr1|]. split; [|exact D].
  rewrite E2, E1. cbn [initial_world effects app].
  rewrite key_events_app, K1, K2. reflexivity.
Defined.

Lemma hold_bounds (w : World) (i : nat) :
  (0 <= random_source w (draws w + i))%Q ->
  (random_source w (draws w + i) < 1)%Q ->
  (Float.literal 0.096 <= hold w i)%Q /\ (hold w i <= Float.literal 0.1)%Q.
Proof.
  intros H0 H1. unfold hold, hold_of.
  apply uniform_between_floats; assumption.
Qed.

(** The floats 0.096 and 0.1 in milliseconds: the first is not below 96,
    the second is above 100, by less than 10^-14. *)
Lemma float_bounds_in_milliseconds :
  (96 <= milliseconds (Float.literal 0.096))%Q /\
  (100 < milliseconds (Float.literal 0.1))%Q /\
  (milliseconds (Float.literal 0.1) <= 100 + (1 # 100000000000000))%Q.
Proof.
  rewrite literal_0_096, literal_0_1. unfold milliseconds.
  split; [|split]; [discriminate | reflexivity | discriminate].
Qed.

Lemma pause_in_milliseconds :
  (5 < milliseconds (Float.literal 0.005))%Q /\
  (milliseconds (Float.literal 0.005) <= 5 + (1 # 1000000000000000))%Q.
Proof.
  rewrite literal_0_005. unfold milliseconds.
  split; [reflexivity | discriminate].
Qed.

Lemma hold_bounds_in_milliseconds (w : World) (i : nat) :
  (0 <= random_source w (draws w + i))%Q ->
  (random_source w (draws w + i) < 1)%Q ->
  (96 <= milliseconds (hold w i))%Q /\
  (milliseconds (hold w i) <= 100 + (1 # 100000000000000))%Q.
Proof.
  intros H0 H1.
  destruct (hold_bounds w i H0 H1) as [L U].
  destruct float_bounds_in_milliseconds as (La & _ & Ub).
  unfold milliseconds in *. split; lra.
Qed.





(** The trace a crashed replay leaves ends with the effects of the calls
    that succeeded. *)
Lemma held_after_crash (w : World) (n : nat) (d1 d2 : Q) :
  held (effects w ++ firstn (effects_in_calls n) (replay d1 d2)) =
  held_from (held (effects w)) (firstn (effects_in_calls n) (replay d1 d2)).
Proof. unfold held. apply held_from_app. Qed.

(** Once the flag is stuck, every later click is ignored. *)
Lemma dispatch_stuck (clicks : list Click) (w : World) :
  is_script_running w = true ->
  dispatch on_click clicks w = Ok tt w.
Proof.
  intros Hrun. induction clicks as [|c rest IH].
  - reflexivity.
  - rewrite dispatch_cons, on_click_ignores; [exact IH|].
    unfold triggers. rewrite Hrun. cbn [negb]. apply andb_false_r.
Qed.

(** C8: when a library call of the replay raises, the exception leaves
    the handler with the guard flag still true, and nothing lowers it
    afterwards: every later click finds it true and is ignored.  If the
    call that raised lies between the press of a key and its release,
    that key stays down.  The script itself ends in that same world: no
    handler or exit path of the main block touches the flag. *)
Theorem crash_leaves_flag_and_key (x y : Z) (w : World) (n : nat) (e : Exn) :
  is_script_running w = false ->
  fault w = Some (n, e) ->
  (n < replay_calls)%nat ->
  exists w',
    on_click x y button_to_trigger true w = Raise e w' /\
    is_script_running w' = true /\
    (forall clicks, dispatch on_click clicks w' = Ok tt w') /\
    (forall rest interrupt,
       final_state (main (mkClick x y button_to_trigger true :: rest)
                         interrupt w) = w') /\
    ((1 <= n <= 3)%nat -> In (Key.char "v") (held (effects w'))) /\
    (n = 6%nat -> In (Key.char "2") (held (effects w'))) /\
    ((8 <= n <= 10)%nat -> In (Key.char "1") (held (effects w'))).
Proof.
  intros Hrun Hf Hn.
  eexists. split; [apply (on_click_crashes x y w n e Hrun Hf Hn)|].
  split; [reflexivity|].
  split; [intros clicks; apply dispatch_stuck; reflexivity|].
  split.
  { intros rest interrupt.
    unfold main, with_context, try_except, join, bind, listener_stop, ret.
    rewrite dispatch_cons.
    cbn [click_x click_y click_button click_pressed].
    rewrite (on_click_crashes x y w n e Hrun Hf Hn).
    destruct (handles e); reflexivity. }
  cbn [effects]. rewrite held_after_crash.
  unfold replay_calls in Hn.
  repeat split; intros Hk;
    do 11 (destruct n as [|n]; [try (exfalso; lia); try discriminate Hk;
                               cbn; auto |]);
    exfalso; lia.
Qed.

Lemma crash_leaves_flag_and_key_witness :
  exists w',
    on_click 7 7 button_to_trigger true
      (initial_world (fun _ => 1 # 2) (Some (3%nat, Exception "release")))
      = Raise (Exception "release") w' /\
    is_script_running w' = true /\
    In (Key.char "v") (held (effects w')).
Proof.
  destruct (crash_leaves_flag_and_key 7 7
              (initial_world (fun _ => 1 # 2) (Some (3%nat, Exception "release")))
              3 (Exception "release") eq_refl eq_refl)
    as (w' & H & Hr & _ & _ & Hv & _).
  - unfold replay_calls. lia.
  - exists w'. split; [exact H|]. split; [exact Hr|]. apply Hv. lia.
Defined.

End MouseFacts.

(* ================================================================== *)
(** * Properties of mouseid.py *)

Section MouseIdFacts.
Import MouseId.
Local Open Scope string_scope.

Lemma append_assoc (a b c : string) : (a ++ b) ++ c = a ++ (b ++ c).
Proof.
  induction a as [|ch a IH]; simpl.
  - reflexivity.
  - rewrite IH. reflexivity.
Qed.

Lemma append_nil_r (a : string) : a ++ "" = a.
Proof.
  induction a as [|ch a IH]; simpl.
  - reflexivity.
  - rewrite IH. reflexivity.
Qed.

(** A text without a line end, followed by one, is the next line. *)
Lemma lines_from_line (s cur rest : string) :
  has_newline s = false ->
  lines_from cur (s ++ newline ++ rest) = (cur ++ s) :: lines_from "" rest.
Proof.
  revert cur. induction s as [|ch s IH]; intros cur Hs.
  - simpl. rewrite append_nil_r. reflexivity.
  - simpl in Hs. apply orb_false_iff in Hs. destruct Hs as [Hc Hs].
    cbn [append lines_from]. rewrite Hc.
    rewrite (IH _ Hs), append_assoc. reflexivity.
Qed.

Lemma message_has_no_newline (button : Button.t) (pressed : bool) :
  has_newline (message button pressed) = false.
Proof. destruct button, pressed; reflexivity. Qed.

Lemma lines_printed (msgs : list string) :
  (forall m, In m msgs -> has_newline m = false) ->
  lines (printed msgs) = msgs.
Proof.
  induction msgs as [|m rest IH]; intros Hm.
  - reflexivity.
  - unfold lines. cbn [printed].
    rewrite lines_from_line by (apply Hm; left; reflexivity).
    cbn [append]. f_equal. apply IH.
    intros m' Hin. apply Hm. right. exact Hin.
Qed.

Lemma dispatch_prints (clicks : list Click) (w : World) :
  dispatch on_click clicks w =
    Ok tt (mkWorld (stdout w ++ printed (map message_of clicks))).
Proof.
  revert w. induction clicks as [|c rest IH]; intros w.
  - destruct w as [out]. cbn. rewrite append_nil_r. reflexivity.
  - cbn [dispatch map printed]. unfold bind at 1.
    unfold on_click at 1. unfold bind, print, modify, ret.
    rewrite IH. cbn [stdout]. unfold message_of.
    rewrite !append_assoc. reflexivity.
Qed.

(** C5: the identifier prints one line per delivered event, in delivery
    order, each of the form [Button <button> <pressed|released>], and
    drops or merges none; the events (a, press), (a, release), (b, press)
    give exactly the three lines for them. *)
Theorem identifier_prints_every_event (clicks : list Click) :
  (exists w',
     dispatch on_click clicks initial_world = Ok tt w' /\
     lines (stdout w') =
       map (fun c => "Button " ++ Button.str (click_button c) ++ " "
                       ++ (if click_pressed c then "pressed" else "released"))
           clicks /\
     List.length (lines (stdout w')) = List.length clicks)
  /\ (forall (a b : Button.t) (xa ya xb yb xc yc : Z),
       exists w',
         dispatch on_click [ mkClick xa ya a true; mkClick xb yb a false;
                             mkClick xc yc b true ] initial_world
           = Ok tt w' /\
         lines (stdout w') =
           [ "Button " ++ Button.str a ++ " pressed";
             "Button " ++ Button.str a ++ " released";
             "Button " ++ Button.str b ++ " pressed" ]).
Proof.
  assert (G : forall cs,
             lines (stdout (mkWorld (stdout initial_world
                                       ++ printed (map message_of cs))))
             = map message_of cs).
  { intros cs. cbn [stdout initial_world append].
    apply lines_printed. intros m Hin.
    apply in_map_iff in Hin. destruct Hin as (c & <- & _).
    apply message_has_no_newline. }
  split.
  - eexists. split; [apply dispatch_prints|].
    rewrite G. split; [reflexivity|]. apply length_map.
  - intros a b xa ya xb yb xc yc.
    eexists. split; [apply dispatch_prints|].
    rewrite G. reflexivity.
Qed.

End MouseIdFacts.

(* ================================================================== *)
(** * Properties of both scripts *)

Section BothScripts.

(** C6 (amended): only mouse.py guards [listener.join()].  There, a
    KeyboardInterrupt that reaches the main thread while it is blocked is
    caught: the script ends normally, with no traceback and exit status 0.
    In mouseid.py nothing catches it: it leaves the script uncaught. *)
Theorem interrupt_caught_in_mouse_only
        (clicks : list Click) (w : Mouse.World)
        (clicks' : list Click) (wi : MouseId.World) :
  Mouse.fault w = None ->
  (run_script (Mouse.main clicks (Some KeyboardInterrupt)) w = ExitedNormally /\
   error_message (run_script (Mouse.main clicks (Some KeyboardInterrupt)) w)
     = None /\
   exits_zero (run_script (Mouse.main clicks (Some KeyboardInterrupt)) w)
     = true)
  /\ run_script (MouseId.main clicks' (Some KeyboardInterrupt)) wi
       = UncaughtException KeyboardInterrupt.
Proof.
  intros Hf.
  assert (Hd : exists w', dispatch Mouse.on_click clicks w = Ok tt w').
  { revert w Hf. induction clicks as [|c rest IH]; intros w Hf.
    - exists w. reflexivity.
    - rewrite dispatch_cons.
      destruct (on_click_cases (click_x c) (click_y c) (click_button c)
                  (click_pressed c) w)
        as [(_ & ->) | [(_ & _ & w' & -> & _ & _ & Hf')
                       | (_ & n & e & w' & Hf' & _)]].
      + apply IH. exact Hf.
      + apply IH. rewrite Hf'. unfold Mouse.fault_after. rewrite Hf.
        reflexivity.
      + congruence. }
  destruct Hd as (w' & Hd).
  split.
  - unfold run_script, Mouse.main, with_context, try_except, join, bind,
      raise, listener_stop, ret.
    rewrite Hd. cbn. repeat split.
  - unfold run_script, MouseId.main, with_context, join, bind, raise,
      listener_stop, ret.
    rewrite dispatch_prints. reflexivity.
Qed.

Lemma interrupt_caught_in_mouse_only_witness :
  run_script (Mouse.main [mkClick 0 0 Button.x2 true]
                         (Some KeyboardInterrupt))
             (Mouse.initial_world (fun _ => 0) None) = ExitedNormally
  /\ run_script (MouseId.main [mkClick 0 0 Button.x2 true]
                              (Some KeyboardInterrupt))
                MouseId.initial_world
       = UncaughtException KeyboardInterrupt.
Proof.
  destruct (interrupt_caught_in_mouse_only
              [mkClick 0 0 Button.x2 true]
              (Mouse.initial_world (fun _ => 0) None)
              [mkClick 0 0 Button.x2 true] MouseId.initial_world eq_refl)
    as ((H & _) & H').
  split; assumption.
Defined.

(** C6 does not hold of both scripts: interrupted while it blocks in
    [listener.join()], mouseid.py does not exit normally. *)
Lemma interrupt_not_caught_in_mouseid :
  ~ (run_script (Mouse.main [] (Some KeyboardInterrupt))
                (Mouse.initial_world (fun _ => 0) None) = ExitedNormally
     /\ run_script (MouseId.main [] (Some KeyboardInterrupt))
                   MouseId.initial_world = ExitedNormally).
Proof.
  intros [_ H]. discriminate H.
Qed.

(** C9: neither handler looks at the cursor position: with the same
    button and the same pressed flag, two invocations in the same world
    that differ only in the coordinates do the same, key events and
    printed line included. *)
Theorem cursor_position_is_unused
        (x y x' y' : Z) (button : Button.t) (pressed : bool)
        (w : Mouse.World) (wi : MouseId.World) :
  Mouse.on_click x y button pressed w = Mouse.on_click x' y' button pressed w
  /\ Mouse.key_events
       (Mouse.effects (final_state (Mouse.on_click x y button pressed w))) =
     Mouse.key_events
       (Mouse.effects (final_state (Mouse.on_click x' y' button pressed w)))
  /\ MouseId.on_click x y button pressed wi =
     MouseId.on_click x' y' button pressed wi
  /\ MouseId.stdout (final_state (MouseId.on_click x y button pressed wi)) =
     MouseId.stdout (final_state (MouseId.on_click x' y' button pressed wi)).
Proof.
  repeat split.
Qed.

(** C10: neither handler ever returns the stop value [False]: whenever
    one returns, it returns [None], so the listener goes on to the next
    event after every handled one, a completed replay included. *)
Theorem callbacks_never_stop_listener
        (x y : Z) (button : Button.t) (pressed : bool)
        (w : Mouse.World) (wi : MouseId.World) (rest : list Click) :
  (forall v w', Mouse.on_click x y button pressed w = Ok v w' -> v = PyNone)
  /\ (Mouse.fault_due_within Mouse.replay_calls w = false ->
      exists w', Mouse.on_click x y button pressed w = Ok PyNone w')
  /\ (exists wi', MouseId.on_click x y button pressed wi = Ok PyNone wi')
  /\ dispatch Mouse.on_click (mkClick x y button pressed :: rest) w =
       bind (Mouse.on_click x y button pressed)
            (fun _ => dispatch Mouse.on_click rest) w
  /\ dispatch MouseId.on_click (mkClick x y button pressed :: rest) wi =
       bind (MouseId.on_click x y button pressed)
            (fun _ => dispatch MouseId.on_click rest) wi.
Proof.
  pose proof (on_click_cases x y button pressed w) as Hc.
  split; [|split; [|split; [|split]]].
  - intros v w' Hv.
    destruct Hc as [(_ & H) | [(_ & _ & w1 & H & _)
                              | (_ & n & e & w1 & _ & _ & H & _)]];
      rewrite H in Hv; congruence.
  - intros Hdue.
    destruct Hc as [(_ & H) | [(_ & _ & w1 & H & _)
                              | (_ & n & e & w1 & Hf & Hn & _)]].
    + exists w. exact H.
    + exists w1. exact H.
    + unfold Mouse.fault_due_within in Hdue. rewrite Hf in Hdue.
      apply Nat.ltb_ge in Hdue. lia.
  - eexists. reflexivity.
  - rewrite dispatch_cons. cbn [click_x click_y click_button click_pressed].
    unfold bind.
    destruct Hc as [(_ & H) | [(_ & _ & w1 & H & _)
                              | (_ & n & e & w1 & _ & _ & H & _)]];
      rewrite H; reflexivity.
  - reflexivity.
Qed.

Lemma callbacks_never_stop_listener_witness :
  exists w',
    Mouse.on_click 5 5 Button.x2 true (Mouse.initial_world (fun _ => 0) None)
      = Ok PyNone w'.
Proof.
  destruct (callbacks_never_stop_listener 5 5 Button.x2 true
              (Mouse.initial_world (fun _ => 0) None)
              MouseId.initial_world [])
    as (_ & H & _).
  apply H. reflexivity.
Defined.

End BothScripts.

(* ================================================================== *)
(** * Whole runs of mouse.py *)

Section MouseRuns.
Import Mouse.

Lemma hold_is_hold_of (w : World) (i : nat) :
  hold w i = hold_of (random_source w (draws w + i)).
Proof. unfold hold. reflexivity. Qed.

Lemma triggers_is_trigger_press (c : Click) (w : World) :
  is_script_running w = false ->
  triggers (click_button c) (click_pressed c) w = is_trigger_press c.
Proof.
  intros Hrun. unfold triggers, is_trigger_press. rewrite Hrun.
  cbn [negb]. apply andb_true_r.
Qed.

Lemma fault_due_within_le (a b : nat) (w : World) :
  (a <= b)%nat ->
  fault_due_within b w = false -> fault_due_within a w = false.
Proof.
  unfold fault_due_within. intros Hab.
  destruct (fault w) as [[n e]|]; [|reflexivity].
  intros H. apply Nat.ltb_ge in H. apply Nat.ltb_ge. lia.
Qed.

Lemma fault_after_0 (w : World) : fault_after 0 w = fault w.
Proof.
  unfold fault_after. destruct (fault w) as [[n e]|]; [|reflexivity].
  rewrite Nat.sub_0_r. reflexivity.
Qed.

(** The world a run reaches when no fault strikes during its replays. *)
Lemma dispatch_run (clicks : list Click) (w : World) :
  is_script_running w = false ->
  fault_due_within (replay_calls * trigger_presses clicks) w = false ->
  dispatch on_click clicks w =
    Ok tt (mkWorld false
             (effects w ++
                replays (random_source w) (draws w) (trigger_presses clicks))
             (random_source w)
             (2 * trigger_presses clicks + draws w)%nat
             (fault_after (replay_calls * trigger_presses clicks) w)).
Proof.
  revert w. induction clicks as [|c rest IH]; intros w Hrun Hdue.
  - cbn [dispatch]. unfold ret, trigger_presses. cbn [filter List.length replays].
    rewrite Nat.mul_0_r, fault_after_0, app_nil_r. cbn [Nat.mul Nat.add].
    destruct w; cbn in Hrun; subst; reflexivity.
  - rewrite dispatch_cons.
    pose proof (triggers_is_trigger_press c w Hrun) as Ht.
    unfold trigger_presses in *. cbn [filter] in *.
    destruct (is_trigger_press c) eqn:Hc.
    + cbn [List.length] in *.
      apply triggers_iff in Ht. destruct Ht as (Hb & Hp & _).
      rewrite Hb, Hp.
      set (k := List.length (filter is_trigger_press rest)) in *.
      assert (Hdue1 : fault_due_within replay_calls w = false).
      { apply (fault_due_within_le replay_calls (replay_calls * S k) w);
          [lia | exact Hdue]. }
      rewrite (on_click_completes (click_x c) (click_y c) w Hrun Hdue1).
      rewrite IH.
      * cbn [effects random_source draws replays].
        rewrite <- app_assoc. unfold hold. rewrite Nat.add_0_r, Nat.add_1_r.
        f_equal. f_equal; [lia|].
        unfold fault_after. cbn [fault].
        destruct (fault w) as [[n e]|]; [|reflexivity].
        f_equal. f_equal. unfold replay_calls. lia.
      * reflexivity.
      * unfold fault_due_within, fault_after in *. cbn [fault].
        destruct (fault w) as [[n e]|]; [|reflexivity].
        apply Nat.ltb_ge in Hdue. apply Nat.ltb_ge.
        unfold replay_calls in *. lia.
    + rewrite (on_click_ignores (click_x c) (click_y c) _ _ w Ht).
      apply IH; assumption.
Qed.

Lemma key_events_replays (rnd : nat -> Q) (from k : nat) :
  key_events (replays rnd from k) = List.concat (repeat replay_keys k).
Proof.
  revert from. induction k as [|k IH]; intros from.
  - reflexivity.
  - cbn [replays repeat concat]. rewrite key_events_app, IH. reflexivity.
Qed.

(** X1: a run of clicks that starts with the guard flag false, and that
    no fault reaches, replays once for every press of the trigger button
    in it, none suppressed, and does nothing for the other clicks: the
    key events are the six of the replay, repeated; each replay draws two
    fresh samples; the flag is false at the end. *)
Theorem run_replays_each_trigger_press (clicks : list Click) (w : World) :
  is_script_running w = false ->
  fault_due_within (replay_calls * trigger_presses clicks) w = false ->
  exists w',
    dispatch on_click clicks w = Ok tt w' /\
    is_script_running w' = false /\
    effects w' =
      effects w ++
        replays (random_source w) (draws w) (trigger_presses clicks) /\
    key_events (effects w') =
      key_events (effects w) ++
        List.concat (repeat replay_keys (trigger_presses clicks)) /\
    draws w' = (2 * trigger_presses clicks + draws w)%nat.
Proof.
  intros Hrun Hdue.
  eexists. split; [apply dispatch_run; assumption|].
  cbn [is_script_running effects draws].
  rewrite key_events_app, key_events_replays.
  repeat split.
Qed.

Lemma run_replays_each_trigger_press_witness :
  exists w',
    dispatch on_click
      [ mkClick 0 0 Button.x2 true; mkClick 0 0 Button.x2 false;
        mkClick 5 5 Button.left true; mkClick 5 5 Button.left false;
        mkClick 9 9 Button.x2 true; mkClick 9 9 Button.x2 false ]
      (initial_world (fun _ => 1 # 3) None) = Ok tt w' /\
    key_events (effects w') = replay_keys ++ replay_keys /\
    draws w' = 4%nat.
Proof.
  destruct (run_replays_each_trigger_press
              [ mkClick 0 0 Button.x2 true; mkClick 0 0 Button.x2 false;
                mkClick 5 5 Button.left true; mkClick 5 5 Button.left false;
                mkClick 9 9 Button.x2 true; mkClick 9 9 Button.x2 false ]
              (initial_world (fun _ => 1 # 3) None) eq_refl eq_refl)
    as (w' & H & _ & _ & K & D).
  exists w'. split; [exact H|]. split; [exact K | exact D].
Defined.

Lemma key_eqb_refl (k : Key.t) : Key.eqb k k = true.
Proof. destruct k; simpl; [reflexivity | apply Ascii.eqb_refl]. Qed.

Lemma without_same (k : Key.t) (ks : list Key.t) :
  without k (k :: ks) = without k ks.
Proof. unfold without. cbn [filter]. rewrite key_eqb_refl. reflexivity. Qed.

Lemma without_idem (k : Key.t) (ks : list Key.t) :
  without k (without k ks) = without k ks.
Proof.
  unfold without. induction ks as [|k' ks IH]; cbn [filter].
  - reflexivity.
  - destruct (negb (Key.eqb k k')) eqn:E; cbn [filter].
    + rewrite E, IH. reflexivity.
    + exact IH.
Qed.

Lemma held_from_replay (down : list Key.t) (d1 d2 : Q) :
  held_from down (replay d1 d2) =
    without (Key.char "1") (without (Key.char "2")
      (without (Key.char "v") down)).
Proof.
  unfold replay. cbn [held_from].
  rewrite !without_same, !without_idem. reflexivity.
Qed.

(** X2: a completed replay leaves none of its keys down and no other key
    changed: the keys held after it are those held before, less v, 2 and
    1.  With no key held before, none is held after. *)
Theorem replay_releases_its_keys (x y : Z) (w : World) :
  is_script_running w = false ->
  fault_due_within replay_calls w = false ->
  exists w',
    on_click x y button_to_trigger true w = Ok PyNone w' /\
    held (effects w') =
      without (Key.char "1") (without (Key.char "2")
        (without (Key.char "v") (held (effects w)))) /\
    (held (effects w) = [] -> held (effects w') = []).
Proof.
  intros Hrun Hdue.
  eexists. split; [apply on_click_completes; assumption|].
  cbn [effects]. unfold held.
  rewrite held_from_app, held_from_replay.
  split; [reflexivity|].
  intros H. rewrite H. reflexivity.
Qed.

Lemma replay_releases_its_keys_witness :
  exists w',
    on_click 0 0 button_to_trigger true
      (mkWorld false [KeyPress Key.esc; KeyPress (Key.char "v")]
               (fun _ => 0) 0 None) = Ok PyNone w' /\
    held (effects w') = [Key.esc].
Proof.
  destruct (replay_releases_its_keys 0 0
              (mkWorld false [KeyPress Key.esc; KeyPress (Key.char "v")]
                       (fun _ => 0) 0 None) eq_refl eq_refl)
    as (w' & H & E & _).
  exists w'. split; [exact H|]. rewrite E. reflexivity.
Defined.

Lemma key_eqb_eq (k k' : Key.t) : Key.eqb k k' = true -> k = k'.
Proof.
  destruct k as [|c], k' as [|c']; simpl; intros H;
    try reflexivity; try discriminate H.
  apply Ascii.eqb_eq in H. rewrite H. reflexivity.
Qed.

Lemma in_firstn {A} (x : A) (k : nat) (l : list A) :
  In x (firstn k l) -> In x l.
Proof.
  revert l. induction k as [|k IH]; intros [|a l]; simpl; try tauto.
  intros [H | H]; [left; exact H | right; apply IH; exact H].
Qed.

Lemma replay_touches (d1 d2 : Q) (ev : Effect) (k : Key.t) :
  In ev (replay d1 d2) -> touches k ev = true ->
  k = Key.char "v" \/ k = Key.char "2" \/ k = Key.char "1".
Proof.
  unfold replay. cbn [In].
  intros H Ht.
  repeat (destruct H as [H | H];
          [ subst ev; cbn [touches] in Ht;
            try discriminate Ht; apply key_eqb_eq in Ht; auto | ]).
  contradiction.
Qed.

(** X3: whatever the event and however the invocation ends (ignored,
    completed, or stopped by an exception), what the handler has added to
    the trace is an initial part of one replay.  So it presses and
    releases no key but v, 2 and 1; [stop_key] is never touched. *)
Theorem handler_emits_part_of_replay
        (x y : Z) (button : Button.t) (pressed : bool) (w : World) :
  exists k,
    effects (final_state (on_click x y button pressed w)) =
      effects w ++ firstn k (replay (hold w 0) (hold w 1)) /\
    (forall ev key,
       In ev (firstn k (replay (hold w 0) (hold w 1))) ->
       touches key ev = true ->
       key = Key.char "v" \/ key = Key.char "2" \/ key = Key.char "1") /\
    (forall ev,
       In ev (firstn k (replay (hold w 0) (hold w 1))) ->
       touches stop_key ev = false).
Proof.
  assert (G : forall k,
             (forall ev key,
                In ev (firstn k (replay (hold w 0) (hold w 1))) ->
                touches key ev = true ->
                key = Key.char "v" \/ key = Key.char "2" \/ key = Key.char "1")
             /\ (forall ev,
                   In ev (firstn k (replay (hold w 0) (hold w 1))) ->
                   touches stop_key ev = false)).
  { intros k. split.
    - intros ev key Hin. apply in_firstn in Hin.
      apply (replay_touches _ _ _ _ Hin).
    - intros ev Hin. apply in_firstn in Hin.
      destruct (touches stop_key ev) eqn:E; [|reflexivity].
      destruct (replay_touches _ _ _ _ Hin E) as [H | [H | H]];
        discriminate H. }
  destruct (triggers button pressed w) eqn:Ht.
  - apply triggers_iff in Ht. destruct Ht as (-> & -> & Hrun).
    destruct (fault_due_within replay_calls w) eqn:Hdue.
    + unfold fault_due_within in Hdue.
      destruct (fault w) as [[n e]|] eqn:Hf; [|discriminate].
      apply Nat.ltb_lt in Hdue.
      exists (effects_in_calls n).
      rewrite (on_click_crashes x y w n e Hrun Hf Hdue).
      split; [reflexivity | apply G].
    + exists 9%nat.
      rewrite (on_click_completes x y w Hrun Hdue).
      split; [reflexivity | apply G].
  - exists 0%nat. rewrite (on_click_ignores x y button pressed w Ht).
    split; [|apply G].
    cbn [final_state firstn]. rewrite app_nil_r. reflexivity.
Qed.

Lemma slept_three_sleeps (d1 p d2 : Q) :
  (slept [ KeyPress (Key.char "v"); Sleep d1; KeyRelease (Key.char "v");
           Sleep p;
           KeyPress (Key.char "2"); KeyRelease (Key.char "2");
           KeyPress (Key.char "1"); Sleep d2; KeyRelease (Key.char "1") ]
   == d1 + p + d2)%Q.
Proof. cbn [slept]. ring. Qed.

Lemma slept_replay (d1 d2 : Q) :
  (slept (replay d1 d2) == d1 + Float.literal 0.005 + d2)%Q.
Proof. unfold replay. apply slept_three_sleeps. Qed.

(** X4: a completed replay keeps the handler, and with it the listener
    thread, asleep for the two holds and the pause: at least 197 ms and
    at most 205 ms in all, the latter up to the rounding of the float
    literals, which adds less than 10^-13 ms. *)
Theorem replay_sleeps_about_200ms (x y : Z) (w : World) :
  is_script_running w = false ->
  fault_due_within replay_calls w = false ->
  (forall i, 0 <= random_source w i /\ random_source w i < 1)%Q ->
  exists w' tr,
    on_click x y button_to_trigger true w = Ok PyNone w' /\
    effects w' = effects w ++ tr /\
    (197 <= milliseconds (slept tr))%Q /\
    (milliseconds (slept tr) <= 205 + (1 # 10000000000000))%Q.
Proof.
  intros Hrun Hdue Hrnd.
  eexists. exists (replay (hold w 0) (hold w 1)).
  split; [apply on_click_completes; assumption|].
  split; [reflexivity|].
  destruct (hold_bounds_in_milliseconds w 0 (proj1 (Hrnd _)) (proj2 (Hrnd _)))
    as [L0 U0].
  destruct (hold_bounds_in_milliseconds w 1 (proj1 (Hrnd _)) (proj2 (Hrnd _)))
    as [L1 U1].
  destruct pause_in_milliseconds as [P0 P1].
  unfold milliseconds in *. rewrite slept_replay.
  revert L0 U0 L1 U1 P0 P1.
  generalize (hold w 0) (hold w 1) (Float.literal 0.005).
  intros h0 h1 p L0 U0 L1 U1 P0 P1.
  split; lra.
Qed.

Lemma replay_sleeps_about_200ms_witness :
  exists w' tr,
    on_click 0 0 button_to_trigger true
             (initial_world (fun _ => 3 # 4) None) = Ok PyNone w' /\
    effects w' = tr /\
    (197 <= milliseconds (slept tr))%Q /\
    (milliseconds (slept tr) <= 205 + (1 # 10000000000000))%Q.
Proof.
  destruct (replay_sleeps_about_200ms 0 0
              (initial_world (fun _ => 3 # 4) None) eq_refl eq_refl)
    as (w' & tr & H & E & L & U).
  - intros i. split.
    + unfold Qle. simpl. lia.
    + unfold Qlt. simpl. lia.
  - exists w', tr. split; [exact H|]. split; [exact E|].
    split; [exact L | exact U].
Defined.

(** With no fault pending every click is handled and none appears. *)
Lemma dispatch_without_fault (clicks : list Click) (w : World) :
  fault w = None ->
  exists w', dispatch on_click clicks w = Ok tt w' /\ fault w' = None.
Proof.
  revert w. induction clicks as [|c rest IH]; intros w Hf.
  - exists w. split; [reflexivity | exact Hf].
  - rewrite dispatch_cons.
    destruct (on_click_cases (click_x c) (click_y c) (click_button c)
                (click_pressed c) w)
      as [(_ & ->) | [(_ & _ & w' & -> & _ & _ & Hf')
                     | (_ & n & e & w' & Hf' & _)]].
    + apply IH. exact Hf.
    + apply IH. rewrite Hf'. unfold fault_after. rewrite Hf. reflexivity.
    + congruence.
Qed.

(** X5: the [except] clause of mouse.py catches KeyboardInterrupt and
    nothing else: when [listener.join()] raises another exception the
    script ends with it, uncaught; when [join] simply returns, the script
    ends normally. *)
Theorem main_catches_only_interrupt
        (clicks : list Click) (w : World) (what : string) :
  fault w = None ->
  run_script (main clicks (Some (Exception what))) w
    = UncaughtException (Exception what)
  /\ run_script (main clicks None) w = ExitedNormally.
Proof.
  intros Hf.
  destruct (dispatch_without_fault clicks w Hf) as (w' & Hd & _).
  unfold run_script, main, with_context, try_except, join, bind, raise,
    listener_stop, ret.
  rewrite Hd. cbn. split; reflexivity.
Qed.

Lemma main_catches_only_interrupt_witness :
  run_script (main [mkClick 0 0 Button.x2 true] (Some (Exception "OSError")))
             (initial_world (fun _ => 0) None)
    = UncaughtException (Exception "OSError")
  /\ run_script (main [mkClick 0 0 Button.x2 true] None)
                (initial_world (fun _ => 0) None) = ExitedNormally.
Proof.
  apply (main_catches_only_interrupt [mkClick 0 0 Button.x2 true]
           (initial_world (fun _ => 0) None) "OSError" eq_refl).
Defined.

(** X6: an exception of a library call inside the replay is caught
    nowhere in mouse.py: it leaves the handler, [join] raises it again,
    and the script ends with it; the clicks after the failed one are not
    handled, and an interrupt that would have come later plays no part. *)
Theorem failed_replay_ends_script
        (x y : Z) (rest : list Click) (interrupt : option Exn)
        (w : World) (n : nat) (what : string) :
  is_script_running w = false ->
  fault w = Some (n, Exception what) ->
  (n < replay_calls)%nat ->
  run_script (main (mkClick x y button_to_trigger true :: rest) interrupt) w
    = UncaughtException (Exception what)
  /\ final_state (main (mkClick x y button_to_trigger true :: rest)
                       interrupt w)
     = final_state (on_click x y button_to_trigger true w).
Proof.
  intros Hrun Hf Hn.
  unfold run_script, main, with_context, try_except, join, bind,
    listener_stop, ret.
  rewrite dispatch_cons. cbn [click_x click_y click_button click_pressed].
  rewrite (on_click_crashes x y w n (Exception what) Hrun Hf Hn).
  cbn. split; reflexivity.
Qed.

Lemma failed_replay_ends_script_witness :
  run_script
    (main [ mkClick 1 2 button_to_trigger true;
            mkClick 1 2 button_to_trigger false ]
          (Some KeyboardInterrupt))
    (initial_world (fun _ => 0) (Some (5%nat, Exception "press")))
    = UncaughtException (Exception "press").
Proof.
  apply (failed_replay_ends_script 1 2
           [mkClick 1 2 button_to_trigger false] (Some KeyboardInterrupt)
           (initial_world (fun _ => 0) (Some (5%nat, Exception "press")))
           5 "press" eq_refl eq_refl).
  unfold replay_calls. lia.
Defined.

(** X10: in a run from a world with the guard flag false, a fault that is
    due at library call [replay_calls * q + r] lets the first [q] trigger
    presses replay in full and stops the run inside the next replay, at
    its call [r]: the exception leaves the run, the guard flag stays
    true, and the trace ends with the part of that replay done so far. *)
Theorem run_stops_in_failed_replay
        (clicks : list Click) (w : World) (q r : nat) (e : Exn) :
  is_script_running w = false ->
  fault w = Some (replay_calls * q + r, e)%nat ->
  (r < replay_calls)%nat ->
  (q < trigger_presses clicks)%nat ->
  exists w',
    dispatch on_click clicks w = Raise e w' /\
    is_script_running w' = true /\
    fault w' = None /\
    effects w' =
      effects w ++
        replays (random_source w) (draws w) q ++
        firstn (effects_in_calls r)
               (replay (hold_of (random_source w (2 * q + draws w)))
                       (hold_of (random_source w (S (2 * q + draws w))))).
Proof.
  revert w q. induction clicks as [|c rest IH]; intros w q Hrun Hf Hr Hq.
  - unfold trigger_presses in Hq. cbn in Hq. lia.
  - rewrite dispatch_cons.
    pose proof (triggers_is_trigger_press c w Hrun) as Ht.
    unfold trigger_presses in *. cbn [filter] in *.
    destruct (is_trigger_press c) eqn:Hc.
    + cbn [List.length] in Hq.
      apply triggers_iff in Ht. destruct Ht as (Hb & Hp & _).
      rewrite Hb, Hp.
      destruct q as [|q].
      * rewrite Nat.mul_0_r in Hf. cbn [Nat.add] in Hf.
        rewrite (on_click_crashes (click_x c) (click_y c) w r e Hrun Hf Hr).
        eexists. split; [reflexivity|].
        cbn [is_script_running fault effects replays app Nat.mul Nat.add].
        unfold hold. rewrite Nat.add_0_r, Nat.add_1_r.
        repeat split.
      * replace (replay_calls * S q + r)%nat
          with (replay_calls + (replay_calls * q + r))%nat in Hf by lia.
        rewrite (on_click_outruns_fault (click_x c) (click_y c) w _ e Hrun Hf).
        destruct (IH (mkWorld false
                        (effects w ++ replay (hold w 0) (hold w 1))
                        (random_source w) (2 + draws w)
                        (Some ((replay_calls * q + r)%nat, e))) q
                     eq_refl eq_refl Hr ltac:(lia))
          as (w' & Hd & Hrun' & Hf' & He').
        exists w'. split; [exact Hd|]. split; [exact Hrun'|].
        split; [exact Hf'|].
        rewrite He'. cbn [effects random_source draws replays].
        unfold hold. rewrite Nat.add_0_r, Nat.add_1_r.
        rewrite <- !app_assoc.
        replace (2 * q + (2 + draws w))%nat
          with (2 * S q + draws w)%nat by lia.
        reflexivity.
    + rewrite (on_click_ignores (click_x c) (click_y c) _ _ w Ht).
      apply IH; assumption.
Qed.

Lemma run_stops_in_failed_replay_witness :
  exists w',
    dispatch on_click
      [ mkClick 0 0 Button.x2 true; mkClick 0 0 Button.x2 false;
        mkClick 0 0 Button.x2 true; mkClick 0 0 Button.x2 false ]
      (initial_world (fun _ => 0) (Some (14%nat, Exception "release")))
      = Raise (Exception "release") w' /\
    is_script_running w' = true /\
    key_events (effects w') = replay_keys ++ [Pressed (Key.char "v")].
Proof.
  destruct (run_stops_in_failed_replay
              [ mkClick 0 0 Button.x2 true; mkClick 0 0 Button.x2 false;
                mkClick 0 0 Button.x2 true; mkClick 0 0 Button.x2 false ]
              (initial_world (fun _ => 0) (Some (14%nat, Exception "release")))
              1 3 (Exception "release") eq_refl eq_refl)
    as (w' & H & Hr & _ & E).
  - unfold replay_calls. lia.
  - unfold trigger_presses. cbn. lia.
  - exists w'. split; [exact H|]. split; [exact Hr|].
    rewrite E. reflexivity.
Defined.

End MouseRuns.

(* ================================================================== *)
(** * Splitting a run *)

Section DispatchAppend.
Context {S : Type}.
Variable handler : Z -> Z -> Button.t -> bool -> M S PyVal.
Hypothesis never_false :
  forall x y button pressed s s',
    handler x y button pressed s <> Ok (PyBool false) s'.

(** Under a handler that never asks to stop, a run over two batches of
    clicks is the run over the first followed by the run over the
    second. *)
Lemma dispatch_app (cs1 cs2 : list Click) (s : S) :
  dispatch handler (cs1 ++ cs2) s =
    bind (dispatch handler cs1) (fun _ => dispatch handler cs2) s.
Proof.
  revert s. induction cs1 as [|c cs1 IH]; intros s.
  - reflexivity.
  - cbn [app dispatch]. unfold bind in *.
    destruct (handler (click_x c) (click_y c) (click_button c)
                (click_pressed c) s) as [[|[|]] s'|e s'] eqn:E.
    + apply IH.
    + apply IH.
    + exfalso. exact (never_false _ _ _ _ _ _ E).
    + reflexivity.
Qed.
End DispatchAppend.

Section MouseIdRuns.
Local Open Scope string_scope.

Lemma mouse_never_false x y button pressed (w w' : Mouse.World) :
  Mouse.on_click x y button pressed w <> Ok (PyBool false) w'.
Proof.
  destruct (on_click_cases x y button pressed w)
    as [(_ & H) | [(_ & _ & w1 & H & _)
                  | (_ & n & e & w1 & _ & _ & H & _)]];
    rewrite H; discriminate.
Qed.

Lemma mouseid_never_false x y button pressed (w w' : MouseId.World) :
  MouseId.on_click x y button pressed w <> Ok (PyBool false) w'.
Proof. discriminate. Qed.

(** X7: for both handlers, handling a stream of clicks in one run is the
    same as handling a first part of it and then the rest from the world
    the first part left (or stopping with the exception it raised):
    nothing but the world carries over from one click to the next. *)
Theorem run_splits_at_any_point
        (cs1 cs2 : list Click) (w : Mouse.World) (wi : MouseId.World) :
  dispatch Mouse.on_click (cs1 ++ cs2) w =
    match dispatch Mouse.on_click cs1 w with
    | Ok _ w' => dispatch Mouse.on_click cs2 w'
    | Raise e w' => Raise e w'
    end
  /\ dispatch MouseId.on_click (cs1 ++ cs2) wi =
       dispatch MouseId.on_click cs2
         (final_state (dispatch MouseId.on_click cs1 wi)).
Proof.
  split.
  - apply (dispatch_app Mouse.on_click mouse_never_false).
  - rewrite (dispatch_app MouseId.on_click mouseid_never_false).
    unfold bind. rewrite (dispatch_prints cs1 wi). reflexivity.
Qed.

(** X8: the printed line tells the button and the transition apart: two
    events print the same line only if they have the same button and the
    same pressed flag. *)
Theorem message_identifies_event
        (b b' : Button.t) (p p' : bool) :
  MouseId.message b p = MouseId.message b' p' -> b = b' /\ p = p'.
Proof.
  destruct b, p, b', p'; intros H;
    try (split; reflexivity); discriminate H.
Qed.

Lemma message_identifies_event_witness :
  Button.x2 = Button.x2 /\ true = true.
Proof.
  apply (message_identifies_event Button.x2 Button.x2 true true eq_refl).
Defined.

(** X9: mouseid.py catches nothing: whatever exception ends
    [listener.join()], the script ends with it uncaught, and it ends
    normally only if [join] returns.  In every case all the clicks
    delivered before have been printed, after whatever the console
    already held. *)
Theorem identifier_ends_with_all_printed
        (clicks : list Click) (interrupt : option Exn) (w : MouseId.World) :
  run_script (MouseId.main clicks interrupt) w =
    match interrupt with
    | Some e => UncaughtException e
    | None => ExitedNormally
    end
  /\ MouseId.stdout (final_state (MouseId.main clicks interrupt w)) =
       MouseId.stdout w
         ++ MouseId.printed (map MouseId.message_of clicks).
Proof.
  unfold run_script, MouseId.main, with_context, join, bind, raise,
    listener_stop, ret.
  rewrite dispatch_prints.
  split; destruct interrupt; reflexivity.
Qed.

End MouseIdRuns.
